(** * runner.py: the Twilio webhook that provisions a Daily room and starts a bot

    A shallow embedding of [src/runner.py].  The module is a single FastAPI
    route, [twilio_start_bot], its helper [create_daily_room], and the
    start-up check of the [__main__] block.  Everything the module does is an
    effect on a collaborator (the Daily REST helper, [subprocess.Popen],
    [print], [uvicorn.run]), so the embedding is a small monad that

    - reads the collaborators' answers from a [World] (one answer per call:
      every run performs each call at most once),
    - writes every call it performs to a trace of [event]s, in program order,
    - and ends in [Return v] or in [Raise e], as a Python call does. *)

From Stdlib Require Import ZArith String Ascii List.
From stdpp Require Import base option list strings gmap pretty.

Local Open Scope Z_scope.
Local Open Scope string_scope.
Local Open Scope list_scope.

(** ** Python values, as far as the module uses them *)

(** The exceptions the module can see.  [PyException] stands for any other
    subclass of [Exception] (an [OSError] of [Popen], a parser error, the
    errors the Daily helper raises); [PyBaseException] for the ones that are
    not (KeyboardInterrupt, CancelledError, SystemExit), which
    [except Exception] lets through. *)
Inductive exn : Type :=
  | HTTPException (status_code : Z) (detail : string)
  | AttributeError (msg : string)
  | PyException (cls msg : string)
  | PyBaseException (cls msg : string).

Inductive result (A : Type) : Type :=
  | Return (a : A)
  | Raise (e : exn).
Arguments Return {A} a.
Arguments Raise {A} e.

(** [isinstance(e, Exception)]. *)
Definition is_Exception (e : exn) : bool :=
  match e with
  | PyBaseException _ _ => false
  | _ => true
  end.

(** [isinstance(e, KeyboardInterrupt)]. *)
Definition is_KeyboardInterrupt (e : exn) : bool :=
  match e with
  | PyBaseException cls _ => bool_decide (cls = "KeyboardInterrupt")
  | _ => false
  end.

(** A field of a parsed form: a [str], or an upload ([shown] is the text
    [str()] gives for the object). *)
Inductive form_value : Type :=
  | FormStr (s : string)
  | UploadFile (shown : string).

(** Truth value of an object ([bool(x)], as [not x] and [if x] use it). *)
Class PyBool (A : Type) := truth : A → bool.

(** [str(x)], as f-strings and [%s] use it. *)
Class PyStr (A : Type) := str : A → string.

Global Instance string_truth : PyBool string :=
  λ s, match s with EmptyString => false | String _ _ => true end.
Global Instance string_str : PyStr string := λ s, s.

(** [None] is false and prints as [None]. *)
Global Instance option_truth {A} `{PyBool A} : PyBool (option A) :=
  λ o, match o with None => false | Some a => truth a end.
Global Instance option_str {A} `{PyStr A} : PyStr (option A) :=
  λ o, match o with None => "None" | Some a => str a end.

(** An upload object defines neither [__bool__] nor [__len__]: it is true. *)
Global Instance form_value_truth : PyBool form_value :=
  λ v, match v with FormStr s => truth s | UploadFile _ => true end.
Global Instance form_value_str : PyStr form_value :=
  λ v, match v with FormStr s => s | UploadFile shown => shown end.

Global Instance Z_str : PyStr Z := λ n, pretty n.

(** [str(e)]: the message; Starlette's [HTTPException] prints as
    [status: detail]. *)
Global Instance exn_str : PyStr exn :=
  λ e, match e with
       | HTTPException sc d => pretty sc +:+ ": " +:+ d
       | AttributeError m => m
       | PyException _ m => m
       | PyBaseException _ m => m
       end.

(** ** The Daily REST helper's data (pipecat's [daily_rest]) *)

Record DailyRoomSipParams : Type := {
  display_name : string;
  video : bool;
  sip_mode : string;
  num_endpoints : Z;
}.

Record DailyRoomProperties : Type := { sip : DailyRoomSipParams }.

Record DailyRoomParams : Type := { properties : DailyRoomProperties }.

(** The [config] of a created room, of which the module reads
    [sip_endpoint]. *)
Record DailyRoomConfig : Type := { sip_endpoint : string }.

Record DailyRoomObject : Type := {
  url : string;
  config : DailyRoomConfig;
}.

(** A room object is a plain model instance: always true. *)
Global Instance room_truth : PyBool DailyRoomObject := λ _, true.

(** ** Effects *)

(** The arguments of [uvicorn.run] ([argparse]'s namespace). *)
Record Namespace : Type := {
  host : string;
  port : Z;
  reload : bool;
}.

(** What the process does to the outside, in the order it does it. *)
Inductive event : Type :=
  | Print (line : string)
  | CreateRoom (params : DailyRoomParams)
  | GetToken (room_url : string) (expiry_time : Z)
  | Popen (args : list string) (shell : bool) (bufsize : Z) (cwd : string)
  | UvicornRun (app : string) (config : Namespace).

(** What the outside answers.  [daily_create_room] and [daily_get_token] are
    the two methods of the helper that [lifespan] stores in [daily_helpers]; a
    room or a token may come back as [None].  [module_dir] is the directory of
    the module's file, [parse_args] what [argparse] makes of the command line
    and of HOST and PORT. *)
Record World : Type := {
  daily_create_room : DailyRoomParams → result (option DailyRoomObject);
  daily_get_token : string → Z → result (option string);
  subprocess_Popen : list string → bool → Z → string → result unit;
  module_dir : string;
  os_environ : gmap string string;
  parse_args : result Namespace;
  uvicorn_run : string → Namespace → result unit;
}.

Definition trace : Type := list event.

Definition M (A : Type) : Type := World → trace * result A.

Definition run {A} (m : M A) (w : World) : trace * result A := m w.

Global Instance M_ret : MRet M := λ A a _, ([], Return a).

Global Instance M_bind : MBind M := λ A B f m w,
  match m w with
  | (t1, Return a) =>
      match f a w with
      | (t2, r) => (t1 ++ t2, r)
      end
  | (t1, Raise e) => (t1, Raise e)
  end.

Definition raise {A} (e : exn) : M A := λ _, ([], Raise e).

(** [try: body / except C as e: handler e], for the class [C] that
    [catches] recognises. *)
Definition try_except {A} (catches : exn → bool) (body : M A) (handler : exn → M A)
  : M A := λ w,
  match body w with
  | (t1, Return a) => (t1, Return a)
  | (t1, Raise e) =>
      if catches e
      then match handler e w with
           | (t2, r) => (t1 ++ t2, r)
           end
      else (t1, Raise e)
  end.

Definition perform {A} (ev : event) (answer : World → result A) : M A :=
  λ w, ([ev], answer w).

Definition ask {A} (f : World → A) : M A := λ w, ([], Return (f w)).

Definition print (line : string) : M unit := perform (Print line) (λ _, Return tt).

Definition rest_create_room (params : DailyRoomParams) : M (option DailyRoomObject) :=
  perform (CreateRoom params) (λ w, daily_create_room w params).

Definition rest_get_token (room_url : string) (expiry_time : Z) : M (option string) :=
  perform (GetToken room_url expiry_time) (λ w, daily_get_token w room_url expiry_time).

Definition Popen_call (args : list string) (shell : bool) (bufsize : Z) (cwd : string)
  : M unit :=
  perform (Popen args shell bufsize cwd) (λ w, subprocess_Popen w args shell bufsize cwd).

(** Attribute access on a variable that may hold [None]. *)
Definition getattr {A B} (attr : string) (field : A → B) (obj : option A) : M B :=
  match obj with
  | Some o => mret (field o)
  | None => raise (AttributeError ("'NoneType' object has no attribute '" +:+ attr +:+ "'"))
  end.

(** ** Configuration *)

Definition MAX_SESSION_TIME : Z := 5 * 60.
Definition REQUIRED_ENV_VARS : list string := ["OPENAI_API_KEY"; "DAILY_API_KEY"].

(** ** The room provisioner *)

(** Lines 54-63: the room asked for, the same for every call. *)
Definition room_params : DailyRoomParams :=
  {| properties :=
       {| sip := {| display_name := "dialin-user";
                    video := false;
                    sip_mode := "dial-in";
                    num_endpoints := 1 |} |} |}.

(** Lines 52-84.  [room] and [token] stay the possibly-[None] values the
    helper returned, and every [room.url] is the attribute access the source
    performs at that place. *)
Definition create_daily_room (callId : option form_value) : M (option DailyRoomObject) :=
  let params := room_params in
  print "Creating new room...";;
  room ← rest_create_room params;
  room_url ← getattr "url" url room;
  room_config ← getattr "config" config room;
  print ("Daily room: " +:+ room_url +:+ " " +:+ sip_endpoint room_config);;
  room_url ← getattr "url" url room;
  token ← rest_get_token room_url MAX_SESSION_TIME;
  if negb (truth room) || negb (truth token)
  then raise (HTTPException 500 "Failed to get room or token")
  else
    room_url ← getattr "url" url room;
    room_config ← getattr "config" config room;
    let bot_proc :=
      "python3 -m bot_twilio -u " +:+ room_url +:+ " -t " +:+ str token
        +:+ " -i " +:+ str callId +:+ " -s " +:+ sip_endpoint room_config in
    try_except is_Exception
      (cwd ← ask module_dir;
       Popen_call [bot_proc] true 1 cwd)
      (λ e, raise (HTTPException 500 ("Failed to start subprocess: " +:+ str e)));;
    mret room.

(** ** TwiML ([twilio.twiml]) *)

#[local] Set Warnings "-register-all".

(** A TwiML element: tag, attributes (already as text), text and children. *)
Inductive TwiML : Type :=
  | Verb (name : string) (attrs : list (string * string)) (value : option string)
         (verbs : list TwiML).

Definition dquote : string := String "034"%char EmptyString.

Fixpoint escape (f : ascii → string) (s : string) : string :=
  match s with
  | EmptyString => EmptyString
  | String c rest => f c +:+ escape f rest
  end.

(** ElementTree's escaping of text and of attribute values. *)
Definition escape_cdata_char (c : ascii) : string :=
  if decide (c = "&"%char) then "&amp;"
  else if decide (c = "<"%char) then "&lt;"
  else if decide (c = ">"%char) then "&gt;"
  else String c EmptyString.

Definition escape_attrib_char (c : ascii) : string :=
  if decide (c = "034"%char) then "&quot;"
  else if decide (c = "013"%char) then "&#13;"
  else if decide (c = "010"%char) then "&#10;"
  else if decide (c = "009"%char) then "&#09;"
  else escape_cdata_char c.

Definition attrs_xml (attrs : list (string * string)) : string :=
  String.concat ""
    (map (λ kv, " " +:+ kv.1 +:+ "=" +:+ dquote +:+ escape escape_attrib_char kv.2 +:+ dquote)
         attrs).

Fixpoint xml (t : TwiML) : string :=
  match t with
  | Verb name attrs value verbs =>
      match verbs with
      | [] =>
          if truth value
          then "<" +:+ name +:+ attrs_xml attrs +:+ ">"
                 +:+ from_option (escape escape_cdata_char) "" value
                 +:+ "</" +:+ name +:+ ">"
          else "<" +:+ name +:+ attrs_xml attrs +:+ " />"
      | _ :: _ =>
          "<" +:+ name +:+ attrs_xml attrs +:+ ">"
            +:+ from_option (escape escape_cdata_char) "" value
            +:+ String.concat "" (map xml verbs)
            +:+ "</" +:+ name +:+ ">"
      end
  end.

(** [str(resp)]: the XML declaration and the serialised tree. *)
Definition to_xml (t : TwiML) : string :=
  "<?xml version=" +:+ dquote +:+ "1.0" +:+ dquote
    +:+ " encoding=" +:+ dquote +:+ "UTF-8" +:+ dquote +:+ "?>" +:+ xml t.

Global Instance TwiML_str : PyStr TwiML := to_xml.

Definition VoiceResponse : TwiML := Verb "Response" [] None [].

Definition nest (verb : TwiML) (parent : TwiML) : TwiML :=
  match parent with
  | Verb name attrs value verbs => Verb name attrs value (verbs ++ [verb])
  end.

(** [resp.play(url=..., loop=...)]: appends a [Play] verb; the text is set
    only for a non-empty url, the attribute is [str(loop)]. *)
Definition play (play_url : string) (loop : Z) (resp : TwiML) : TwiML :=
  nest (Verb "Play" [("loop", str loop)]
          (if truth play_url then Some play_url else None) [])
       resp.

(** ** The route *)

(** The request, as far as the handler reads it: what [await request.form()]
    gives, the fields in the order of the body, or the exception it raises. *)
Record Request : Type := {
  form : result (list (string * form_value));
}.

Definition request_form (request : Request) : M (list (string * form_value)) :=
  λ _, ([], form request).

(** [dict(form_data)]: a later field of the same name replaces an earlier. *)
Definition dict {V} (items : list (string * V)) : gmap string V :=
  foldl (λ d kv, <[kv.1 := kv.2]> d) ∅ items.

(** Lines 90-94. *)
Definition read_form (request : Request) : M (gmap string form_value) :=
  try_except is_Exception
    (form_data ← request_form request;
     mret (dict form_data))
    (λ _, mret ∅).

Definition HOLD_MUSIC : string :=
  "http://com.twilio.sounds.music.s3.amazonaws.com/MARKOVICHAMP-Borghestral.mp3".

(** Lines 87-112. *)
Definition twilio_start_bot (request : Request) : M string :=
  print "POST /twilio_start_bot";;
  data ← read_form request;
  let callId := data !! "CallSid" in
  if negb (truth callId)
  then raise (HTTPException 500 "Missing 'CallSid' in request")
  else
    print ("CallId: " +:+ str callId);;
    room ← create_daily_room callId;
    print "Put Twilio on hold...";;
    let resp := VoiceResponse in
    let resp := play HOLD_MUSIC 10 resp in
    mret (str resp).

(** What FastAPI sends for a route declared with
    [response_class=PlainTextResponse]: the returned text with status 200; the
    status and detail of an [HTTPException], as JSON; and its plain
    500 for any other [Exception].  These are the cases the handler's own
    code produces; an exception that is not an [Exception] is answered by
    nothing ([sent_status], below, tells the two apart), and an
    [HTTPException] whose status allows no body is sent without one. *)
Inductive Body : Type :=
  | Text (content : string)
  | JsonDetail (detail : string).

Record Response : Type := {
  status : Z;
  media_type : string;
  body : Body;
}.

Definition respond (r : result string) : Response :=
  match r with
  | Return content =>
      {| status := 200; media_type := "text/plain; charset=utf-8"; body := Text content |}
  | Raise (HTTPException status_code detail) =>
      {| status := status_code; media_type := "application/json"; body := JsonDetail detail |}
  | Raise _ =>
      {| status := 500; media_type := "text/plain; charset=utf-8";
         body := Text "Internal Server Error" |}
  end.

(** [POST /twilio_start_bot]. *)
Definition post_twilio_start_bot (request : Request) (w : World) : trace * Response :=
  match run (twilio_start_bot request) w with
  | (t, r) => (t, respond r)
  end.

(** ** Start-up *)

(** Lines 118-120: the loop over the required variables. *)
Fixpoint check_env_vars (vars : list string) : M unit :=
  match vars with
  | [] => mret tt
  | env_var :: rest =>
      environ ← ask os_environ;
      if decide (environ !! env_var = None)
      then raise (PyException "Exception"
                    ("Missing environment variable: " +:+ env_var +:+ "."))
      else check_env_vars rest
  end.

(** Lines 116-135. *)
Definition main : M unit :=
  check_env_vars REQUIRED_ENV_VARS;;
  config ← (λ w, ([], parse_args w));
  try_except is_KeyboardInterrupt
    (perform (UvicornRun "bot_runner:app" config)
             (λ w, uvicorn_run w "bot_runner:app" config))
    (λ _, print "Bot runner shutting down...").

(** ** Observations on a trace *)

Definition room_calls (t : trace) : list DailyRoomParams :=
  omap (λ ev, match ev with CreateRoom p => Some p | _ => None end) t.

Definition token_calls (t : trace) : list (string * Z) :=
  omap (λ ev, match ev with GetToken u e => Some (u, e) | _ => None end) t.

Definition launches (t : trace) : list (list string * bool * Z * string) :=
  omap (λ ev, match ev with Popen a s b c => Some (a, s, b, c) | _ => None end) t.

Definition server_starts (t : trace) : list (string * Namespace) :=
  omap (λ ev, match ev with UvicornRun a c => Some (a, c) | _ => None end) t.

(** ** The provisioner's traces and its two halves *)

(** The command of line 76 and the trace up to the token call, for a room
    that was created. *)
Definition bot_proc (room : DailyRoomObject) (token : option string)
    (callId : option form_value) : string :=
  "python3 -m bot_twilio -u " +:+ url room +:+ " -t " +:+ str token
    +:+ " -i " +:+ str callId +:+ " -s " +:+ sip_endpoint (config room).

Definition provisioning_prefix (room : DailyRoomObject) : trace :=
  [Print "Creating new room...";
   CreateRoom room_params;
   Print ("Daily room: " +:+ url room +:+ " " +:+ sip_endpoint (config room));
   GetToken (url room) MAX_SESSION_TIME].

(** Lines 54-70, up to the test: what the function holds in [room] and
    [token] when it reaches line 72.  [create_daily_room] is this half followed
    by the next ([create_daily_room_split]). *)
Definition room_and_token : M (option DailyRoomObject * option string) :=
  let params := room_params in
  print "Creating new room...";;
  room ← rest_create_room params;
  room_url ← getattr "url" url room;
  room_config ← getattr "config" config room;
  print ("Daily room: " +:+ room_url +:+ " " +:+ sip_endpoint room_config);;
  room_url ← getattr "url" url room;
  token ← rest_get_token room_url MAX_SESSION_TIME;
  mret (room, token).

(** Lines 72-84. *)
Definition validate_and_launch (callId : option form_value)
    (room : option DailyRoomObject) (token : option string) : M (option DailyRoomObject) :=
  if negb (truth room) || negb (truth token)
  then raise (HTTPException 500 "Failed to get room or token")
  else
    room_url ← getattr "url" url room;
    room_config ← getattr "config" config room;
    let bot_proc :=
      "python3 -m bot_twilio -u " +:+ room_url +:+ " -t " +:+ str token
        +:+ " -i " +:+ str callId +:+ " -s " +:+ sip_endpoint room_config in
    try_except is_Exception
      (cwd ← ask module_dir;
       Popen_call [bot_proc] true 1 cwd)
      (λ e, raise (HTTPException 500 ("Failed to start subprocess: " +:+ str e)));;
    mret room.

(** ** The worker's command line *)

(** A command line, as the spec describes the worker's: the program, then
    each flag followed by its value, separated by single spaces. *)
Fixpoint flag_arguments (flags : list (string * string)) : string :=
  match flags with
  | [] => ""
  | (flag, value) :: rest => " " +:+ flag +:+ " " +:+ value +:+ flag_arguments rest
  end.

Definition command_line (program : string) (flags : list (string * string)) : string :=
  program +:+ flag_arguments flags.

(** ** The voice response *)

(** The document the handler builds on lines 107-111. *)
Definition HOLD_TWIML : TwiML :=
  Verb "Response" [] None [Verb "Play" [("loop", "10")] (Some HOLD_MUSIC) []].

(** The elements of a document, the root first. *)
Fixpoint elements (t : TwiML) : list TwiML :=
  t :: match t with
       | Verb _ _ _ verbs => concat (map elements verbs)
       end.

Definition verb_name (t : TwiML) : string :=
  match t with Verb name _ _ _ => name end.

Definition elements_named (name : string) (t : TwiML) : list TwiML :=
  filter (λ e, verb_name e = name) (elements t).

(** The body of every successful response, character by character. *)
Definition HOLD_RESPONSE : string :=
  "<?xml version=" +:+ dquote +:+ "1.0" +:+ dquote +:+ " encoding=" +:+ dquote
    +:+ "UTF-8" +:+ dquote +:+ "?><Response><Play loop=" +:+ dquote +:+ "10" +:+ dquote
    +:+ ">http://com.twilio.sounds.music.s3.amazonaws.com/MARKOVICHAMP-Borghestral.mp3"
    +:+ "</Play></Response>".

(** ** The start-up check *)

(** The first of [vars] that the environment lacks. *)
Definition first_missing (vars : list string) (environ : gmap string string)
  : option string :=
  head (filter (λ env_var, environ !! env_var = None) vars).

Definition missing_variable (env_var : string) : exn :=
  PyException "Exception" ("Missing environment variable: " +:+ env_var +:+ ".").

(** ** Sample worlds and requests *)

(** The spec's end-to-end scenario 1. *)
Definition sample_room : DailyRoomObject :=
  {| url := "https://x.daily.co/abc";
     config := {| sip_endpoint := "sip:abc@x.daily.co" |} |}.

Definition sample_world : World :=
  {| daily_create_room := λ _, Return (Some sample_room);
     daily_get_token := λ _ _, Return (Some "tok456");
     subprocess_Popen := λ _ _ _ _, Return tt;
     module_dir := "/srv/bot";
     os_environ := {[ "OPENAI_API_KEY" := "sk-test"; "DAILY_API_KEY" := "daily-test" ]};
     parse_args := Return {| host := "0.0.0.0"; port := 7860; reload := true |};
     uvicorn_run := λ _ _, Return tt |}.

Definition sample_request : Request :=
  {| form := Return [("CallSid", FormStr "CA123"); ("From", FormStr "+15550100")] |}.

(** A callback without the call identifier. *)
Definition anonymous_request : Request :=
  {| form := Return [("From", FormStr "+15550100")] |}.

(** A request whose body the form parser rejects. *)
Definition garbled_request : Request :=
  {| form := Raise (PyException "ValueError" "invalid form data") |}.

(** A second call, with another identifier, room and token. *)
Definition other_world : World :=
  {| daily_create_room :=
       λ _, Return (Some {| url := "https://y.daily.co/xyz";
                            config := {| sip_endpoint := "sip:xyz@y.daily.co" |} |});
     daily_get_token := λ _ _, Return (Some "tok789");
     subprocess_Popen := subprocess_Popen sample_world;
     module_dir := module_dir sample_world;
     os_environ := os_environ sample_world;
     parse_args := parse_args sample_world;
     uvicorn_run := uvicorn_run sample_world |}.

Definition other_request : Request :=
  {| form := Return [("CallSid", FormStr "CA999")] |}.

(** A room service that answers [None]. *)
Definition roomless_world : World :=
  {| daily_create_room := λ _, Return None;
     daily_get_token := daily_get_token sample_world;
     subprocess_Popen := subprocess_Popen sample_world;
     module_dir := module_dir sample_world;
     os_environ := os_environ sample_world;
     parse_args := parse_args sample_world;
     uvicorn_run := uvicorn_run sample_world |}.

(** The process started with only the OpenAI key set. *)
Definition keyless_world : World :=
  {| daily_create_room := daily_create_room sample_world;
     daily_get_token := daily_get_token sample_world;
     subprocess_Popen := subprocess_Popen sample_world;
     module_dir := module_dir sample_world;
     os_environ := {[ "OPENAI_API_KEY" := "sk-test" ]};
     parse_args := parse_args sample_world;
     uvicorn_run := uvicorn_run sample_world |}.

(** ** Further observations on a trace *)

(** The lines written to the console. *)
Definition printed (t : trace) : list string :=
  omap (λ ev, match ev with Print line => Some line | _ => None end) t.

Definition is_service_call (ev : event) : bool :=
  match ev with
  | CreateRoom _ | GetToken _ _ | Popen _ _ _ _ => true
  | Print _ | UvicornRun _ _ => false
  end.

(** The calls to the room service, the token service and [Popen], in the
    order they were made. *)
Definition service_calls (t : trace) : trace := List.filter is_service_call t.

(** ** The command line of the runner (lines 122-129) *)

(** The options [argparse] found on the command line: the value of [--host]
    and of [--port], as typed, and whether [--reload] occurs. *)
Record CommandLine : Type := {
  arg_host : option string;
  arg_port : option string;
  arg_reload : bool;
}.

(** [os.getenv(key, default)]. *)
Definition getenv {A} (environ : gmap string A) (key : string) (fallback : A) : A :=
  default fallback (environ !! key).

(** [parser.parse_args()] for the three arguments of lines 123-127.  [int] is
    Python's [int] on a string ([None] where it raises).  [--port] has
    [type=int], applied to the typed value or, when the option is absent, to a
    default that is a string (the value of PORT); the default [7860] is
    taken as it is.  A value that [int] rejects ends the process with
    [SystemExit(2)].  [--reload] is [store_true] with [default=True]. *)
Definition parser_parse_args (int : string → option Z)
    (environ : gmap string string) (argv : CommandLine) : result Namespace :=
  let host_default := getenv environ "HOST" "0.0.0.0" in
  let parsed_host := default host_default (arg_host argv) in
  let parsed_port :=
    match arg_port argv with
    | Some typed => int typed
    | None =>
        match environ !! "PORT" with
        | Some text => int text
        | None => Some 7860
        end
    end in
  let parsed_reload := if arg_reload argv then true else true in
  match parsed_port with
  | Some n => Return {| host := parsed_host; port := n; reload := parsed_reload |}
  | None => Raise (PyBaseException "SystemExit" "2")
  end.

(** ** The application's lifespan (lines 39-48) *)

(** The REST helper, as the module builds it; a client session is known by
    its identity. *)
Record DailyRESTHelper : Type := {
  daily_api_key : string;
  daily_api_url : string;
  aiohttp_session : nat;
}.

Inductive lifespan_event : Type :=
  | ClientSessionOpen (session : nat)
  | Serving
  | ClientSessionClose (session : nat).

(** [lifespan]: opens a session, stores the helper under ["rest"] in
    [daily_helpers], lets the application serve, and closes the session.
    [session] is the object [aiohttp.ClientSession()] returns. *)
Definition lifespan (session : nat) (environ : gmap string string)
    (daily_helpers : gmap string DailyRESTHelper)
  : list lifespan_event * gmap string DailyRESTHelper :=
  let aiohttp_session := session in
  let daily_helpers :=
    <["rest" := {| daily_api_key := getenv environ "DAILY_API_KEY" "";
                   daily_api_url := getenv environ "DAILY_API_URL" "https://api.daily.co/v1";
                   aiohttp_session := aiohttp_session |}]> daily_helpers in
  ([ClientSessionOpen aiohttp_session; Serving; ClientSessionClose aiohttp_session],
   daily_helpers).

(** ** More sample worlds and requests *)

Definition with_room_service (answer : result (option DailyRoomObject)) (w : World) : World :=
  {| daily_create_room := λ _, answer;
     daily_get_token := daily_get_token w;
     subprocess_Popen := subprocess_Popen w;
     module_dir := module_dir w;
     os_environ := os_environ w;
     parse_args := parse_args w;
     uvicorn_run := uvicorn_run w |}.

Definition with_token_service (answer : result (option string)) (w : World) : World :=
  {| daily_create_room := daily_create_room w;
     daily_get_token := λ _ _, answer;
     subprocess_Popen := subprocess_Popen w;
     module_dir := module_dir w;
     os_environ := os_environ w;
     parse_args := parse_args w;
     uvicorn_run := uvicorn_run w |}.

Definition with_Popen (answer : result unit) (w : World) : World :=
  {| daily_create_room := daily_create_room w;
     daily_get_token := daily_get_token w;
     subprocess_Popen := λ _ _ _ _, answer;
     module_dir := module_dir w;
     os_environ := os_environ w;
     parse_args := parse_args w;
     uvicorn_run := uvicorn_run w |}.

Definition with_uvicorn (answer : result unit) (w : World) : World :=
  {| daily_create_room := daily_create_room w;
     daily_get_token := daily_get_token w;
     subprocess_Popen := subprocess_Popen w;
     module_dir := module_dir w;
     os_environ := os_environ w;
     parse_args := parse_args w;
     uvicorn_run := λ _ _, answer |}.

Definition with_command_line (environ : gmap string string) (parsed : result Namespace)
    (w : World) : World :=
  {| daily_create_room := daily_create_room w;
     daily_get_token := daily_get_token w;
     subprocess_Popen := subprocess_Popen w;
     module_dir := module_dir w;
     os_environ := environ;
     parse_args := parsed;
     uvicorn_run := uvicorn_run w |}.

Definition network_error : exn := PyException "ClientConnectorError" "Cannot connect to host".

Definition python3_not_found : exn :=
  PyException "FileNotFoundError" "[Errno 2] No such file or directory".

Definition cancelled_request : Request :=
  {| form := Raise (PyBaseException "CancelledError" "") |}.

(** The sample request with further fields, one of them before the call
    identifier. *)
Definition verbose_request : Request :=
  {| form := Return [("AccountSid", FormStr "AC42"); ("CallSid", FormStr "CA123");
                     ("To", FormStr "+15550199")] |}.

(** A decimal reader for the sample command lines. *)
Definition sample_int (s : string) : option Z :=
  if decide (s = "8080") then Some 8080 else None.

(** ** What the application sends, and what the shell makes of the command *)

(** The status of the response that the application sends for an outcome of
    the handler, [None] where it sends none: the error middleware catches
    [Exception] only, so any other exception leaves the application. *)
Definition sent_status (r : result string) : option Z :=
  match r with
  | Return _ => Some 200
  | Raise (HTTPException status_code _) => Some status_code
  | Raise (PyBaseException _ _) => None
  | Raise _ => Some 500
  end.

(** The words the shell makes of a command that has no quoting and no
    operator character: it splits at blanks.  [Popen] with [shell=True] hands
    its one string to the shell, and the worker's arguments are these
    words. *)
Definition shell_words (command : string) : list string := String.words command.

(** The sample call with a blank in its identifier. *)
Definition spaced_request : Request :=
  {| form := Return [("CallSid", FormStr "CA 123")] |}.

(** A process started with an empty environment. *)
Definition bare_world : World :=
  with_command_line ∅ (parse_args sample_world) sample_world.

(** * Proofs *)

(** ** Running the monad *)

Lemma run_bind {A B} (m : M A) (f : A → M B) (w : World) :
  run (m ≫= f) w =
  match run m w with
  | (t1, Return a) => match run (f a) w with (t2, r) => (t1 ++ t2, r) end
  | (t1, Raise e) => (t1, Raise e)
  end.
Proof. reflexivity. Qed.

Ltac unfold_M :=
  cbv beta iota zeta delta
    [run mbind M_bind mret M_ret raise try_except perform ask print
     rest_create_room rest_get_token Popen_call getattr request_form].

(** ** The provisioner, case by case *)

Lemma create_daily_room_run (callId : option form_value) (w : World) :
  run (create_daily_room callId) w =
  match daily_create_room w room_params with
  | Raise e => ([Print "Creating new room..."; CreateRoom room_params], Raise e)
  | Return None =>
      ([Print "Creating new room..."; CreateRoom room_params],
       Raise (AttributeError "'NoneType' object has no attribute 'url'"))
  | Return (Some room) =>
      match daily_get_token w (url room) MAX_SESSION_TIME with
      | Raise e => (provisioning_prefix room, Raise e)
      | Return token =>
          if truth token
          then
            let launch :=
              Popen [bot_proc room token callId] true 1 (module_dir w) in
            match subprocess_Popen w [bot_proc room token callId] true 1 (module_dir w) with
            | Return _ => (provisioning_prefix room ++ [launch], Return (Some room))
            | Raise e =>
                (provisioning_prefix room ++ [launch],
                 Raise (if is_Exception e
                        then HTTPException 500 ("Failed to start subprocess: " +:+ str e)
                        else e))
            end
          else (provisioning_prefix room,
                Raise (HTTPException 500 "Failed to get room or token"))
      end
  end.
Proof.
  unfold create_daily_room, provisioning_prefix, bot_proc. unfold_M.
  destruct (daily_create_room w room_params) as [[room|]|e]; try reflexivity.
  destruct (daily_get_token w (url room) MAX_SESSION_TIME) as [token|e]; [|reflexivity].
  change (truth (Some room)) with true.
  destruct (truth token); cbn [negb orb]; [|reflexivity].
  destruct (subprocess_Popen w _ true 1 (module_dir w)) as [[]|e]; [reflexivity|].
  destruct (is_Exception e); reflexivity.
Qed.

(** A run of the provisioner that returns: both services answered, the
    token is non-empty, the launch did not raise, and the trace is the full
    sequence. *)
Lemma create_daily_room_Return (callId : option form_value) (w : World) t room :
  run (create_daily_room callId) w = (t, Return room) →
  ∃ r token,
    room = Some r
    ∧ daily_create_room w room_params = Return (Some r)
    ∧ daily_get_token w (url r) MAX_SESSION_TIME = Return token
    ∧ truth token = true
    ∧ t = provisioning_prefix r
            ++ [Popen [bot_proc r token callId] true 1 (module_dir w)].
Proof.
  rewrite create_daily_room_run.
  destruct (daily_create_room w room_params) as [[r|]|e] eqn:Hroom; try discriminate.
  destruct (daily_get_token w (url r) MAX_SESSION_TIME) as [token|e] eqn:Htoken;
    try discriminate.
  destruct (truth token) eqn:Htruth; try discriminate.
  destruct (subprocess_Popen w _ true 1 (module_dir w)) as [[]|e]; try discriminate.
  intros [= <- <-]. by exists r, token.
Qed.

(** A true token is a string, and the f-string embeds it as it is. *)
Lemma truth_token_Some (token : option string) :
  truth token = true → ∃ s, token = Some s ∧ s ≠ "" ∧ str token = s.
Proof.
  destruct token as [[|c s]|]; try discriminate.
  intros _. exists (String c s). repeat split. discriminate.
Qed.

(** ** The handler, case by case *)

Lemma read_form_run (request : Request) (w : World) :
  run (read_form request) w =
  ([], match form request with
       | Return form_data => Return (dict form_data)
       | Raise e => if is_Exception e then Return ∅ else Raise e
       end).
Proof.
  unfold read_form. unfold_M.
  destruct (form request) as [form_data|e]; [reflexivity|].
  destruct (is_Exception e); reflexivity.
Qed.

Lemma hold_response_tree : play HOLD_MUSIC 10 VoiceResponse = HOLD_TWIML.
Proof. reflexivity. Qed.

Lemma twilio_start_bot_run (request : Request) (w : World) :
  run (twilio_start_bot request) w =
  match run (read_form request) w with
  | (_, Raise e) => ([Print "POST /twilio_start_bot"], Raise e)
  | (_, Return data) =>
      let callId := data !! "CallSid" in
      if truth callId
      then
        match run (create_daily_room callId) w with
        | (t, Return _) =>
            (Print "POST /twilio_start_bot" :: Print ("CallId: " +:+ str callId)
               :: t ++ [Print "Put Twilio on hold..."],
             Return (to_xml HOLD_TWIML))
        | (t, Raise e) =>
            (Print "POST /twilio_start_bot" :: Print ("CallId: " +:+ str callId) :: t,
             Raise e)
        end
      else ([Print "POST /twilio_start_bot"],
            Raise (HTTPException 500 "Missing 'CallSid' in request"))
  end.
Proof.
  unfold twilio_start_bot. rewrite run_bind. cbn [run print perform].
  rewrite run_bind, read_form_run.
  destruct (match form request with Return _ => _ | Raise _ => _ end) as [data|e];
    [|reflexivity].
  cbn zeta. destruct (truth (data !! "CallSid")); cbn [negb]; [|reflexivity].
  rewrite run_bind. cbn [run print perform]. rewrite run_bind.
  destruct (run (create_daily_room (data !! "CallSid")) w) as [t [room|e]];
    [|reflexivity].
  rewrite run_bind. cbn [run print perform]. rewrite hold_response_tree.
  reflexivity.
Qed.

(** ** The missing call identifier *)

(** C1. A request whose parsed form has no [CallSid], or an empty one, is
    answered with status 500 (the handler raises the [HTTPException] of line
    98), and the run calls neither the room service nor the token service and
    launches nothing. *)
Theorem missing_CallSid_no_provisioning
    (request : Request) (w : World) (data : gmap string form_value) :
  (run (read_form request) w).2 = Return data →
  data !! "CallSid" = None ∨ data !! "CallSid" = Some (FormStr "") →
  ∃ t response,
    run (twilio_start_bot request) w
      = (t, Raise (HTTPException 500 "Missing 'CallSid' in request"))
    ∧ post_twilio_start_bot request w = (t, response)
    ∧ status response = 500
    ∧ room_calls t = [] ∧ token_calls t = [] ∧ launches t = [].
Proof.
  intros Hdata Hmissing.
  assert (truth (data !! "CallSid") = false) as Hfalse
    by (destruct Hmissing as [-> | ->]; reflexivity).
  unfold post_twilio_start_bot. rewrite twilio_start_bot_run.
  destruct (run (read_form request) w) as [t0 r]. cbn [snd] in Hdata. subst r.
  cbn zeta. rewrite Hfalse. eexists _, _. repeat split.
Qed.

Lemma missing_CallSid_no_provisioning_witness :
  ∃ t response,
    run (twilio_start_bot anonymous_request) sample_world
      = (t, Raise (HTTPException 500 "Missing 'CallSid' in request"))
    ∧ post_twilio_start_bot anonymous_request sample_world = (t, response)
    ∧ status response = 500
    ∧ room_calls t = [] ∧ token_calls t = [] ∧ launches t = [].
Proof.
  apply (missing_CallSid_no_provisioning anonymous_request sample_world
           (dict [("From", FormStr "+15550100")])).
  - reflexivity.
  - left. vm_compute. reflexivity.
Defined.

(** ** The room service returns no room *)

(** C2. When the room service answers [None], the provisioner raises and its
    trace holds no token call; the same holds for the whole handler, whatever
    the request. *)
Theorem no_room_no_token_call (w : World) :
  daily_create_room w room_params = Return None →
  (∀ callId, ∃ t e,
     run (create_daily_room callId) w = (t, Raise e) ∧ token_calls t = [])
  ∧ (∀ request, ∃ t e,
       run (twilio_start_bot request) w = (t, Raise e) ∧ token_calls t = []).
Proof.
  intros Hroom.
  assert (∀ callId, ∃ t e,
    run (create_daily_room callId) w = (t, Raise e) ∧ token_calls t = []) as Hprov.
  { intros callId. rewrite create_daily_room_run, Hroom. by eexists _, _. }
  split; [exact Hprov|].
  intros request. rewrite twilio_start_bot_run.
  destruct (run (read_form request) w) as [t0 [data|e]]; [|by eexists _, _].
  cbn zeta. destruct (truth (data !! "CallSid")); [|by eexists _, _].
  destruct (Hprov (data !! "CallSid")) as (t & e & -> & Hcalls).
  eexists _, _. split; [reflexivity|]. exact Hcalls.
Qed.

Lemma no_room_no_token_call_witness :
  (∀ callId, ∃ t e,
     run (create_daily_room callId) roomless_world = (t, Raise e) ∧ token_calls t = [])
  ∧ (∀ request, ∃ t e,
       run (twilio_start_bot request) roomless_world = (t, Raise e) ∧ token_calls t = []).
Proof. apply (no_room_no_token_call roomless_world). reflexivity. Defined.

(** ** Validation before the launch *)

(** X16. An empty (or [None]) token stops the sequence at line 73, with
    nothing launched. *)
Lemma empty_token_fails_before_launch (callId : option form_value) (w : World) room token :
  daily_create_room w room_params = Return (Some room) →
  daily_get_token w (url room) MAX_SESSION_TIME = Return token →
  truth token = false →
  run (create_daily_room callId) w
    = (provisioning_prefix room, Raise (HTTPException 500 "Failed to get room or token"))
  ∧ launches (provisioning_prefix room) = [].
Proof.
  intros Hroom Htoken Hfalse.
  by rewrite create_daily_room_run, Hroom, Htoken, Hfalse.
Qed.

(** X17. Whatever the services answer, a launch in the trace means that a
    room came back and that the token was non-empty: line 72 is passed before
    line 78 runs. *)
Lemma launch_only_after_validation (callId : option form_value) (w : World) t r :
  run (create_daily_room callId) w = (t, r) →
  launches t ≠ [] →
  ∃ room token,
    daily_create_room w room_params = Return (Some room)
    ∧ daily_get_token w (url room) MAX_SESSION_TIME = Return (Some token)
    ∧ token ≠ "".
Proof.
  rewrite create_daily_room_run.
  destruct (daily_create_room w room_params) as [[room|]|e] eqn:Hroom;
    try (intros [= <- <-] []; reflexivity).
  destruct (daily_get_token w (url room) MAX_SESSION_TIME) as [token|e] eqn:Htoken;
    try (intros [= <- <-] []; reflexivity).
  destruct (truth token) eqn:Htruth;
    [|intros [= <- <-] []; reflexivity].
  intros _ _. destruct (truth_token_Some token Htruth) as (s & -> & Hs & _).
  by exists room, s.
Qed.

(** C3, at the input where the code departs from it: the room service
    answers [None].  The sequence stops before the token call and before any
    launch, but with the [AttributeError] of line 67 ([room.url] on [None]),
    not with the [HTTPException] of line 73: the test of [room] on line 72
    comes after the uses of [room].  The caller is sent the framework's plain
    500, not the detail of line 73. *)
Example missing_room_is_not_a_provisioning_error :
  run (create_daily_room (Some (FormStr "CA123"))) roomless_world
    = ([Print "Creating new room..."; CreateRoom room_params],
       Raise (AttributeError "'NoneType' object has no attribute 'url'"))
  ∧ AttributeError "'NoneType' object has no attribute 'url'"
      ≠ HTTPException 500 "Failed to get room or token"
  ∧ (post_twilio_start_bot sample_request roomless_world).2
      = {| status := 500; media_type := "text/plain; charset=utf-8";
           body := Text "Internal Server Error" |}.
Proof. split; [reflexivity|]. split; [discriminate|]. vm_compute. reflexivity. Qed.

(** ** The successful sequence *)

(** C4. A provisioning sequence that returns has made exactly one
    room-creation call and exactly one token call, the latter for the url of
    the room created and with an expiry of 300 seconds, whatever the call
    identifier. *)
Theorem successful_sequence_calls (callId : option form_value) (w : World) t room :
  run (create_daily_room callId) w = (t, Return room) →
  room_calls t = [room_params]
  ∧ ∃ r, room = Some r ∧ token_calls t = [(url r, 300)].
Proof.
  intros (r & token & -> & _ & _ & _ & ->)%create_daily_room_Return.
  split; [reflexivity|]. by exists r.
Qed.

Lemma successful_sequence_calls_witness :
  room_calls (run (create_daily_room (Some (FormStr "CA123"))) sample_world).1
    = [room_params]
  ∧ ∃ r, Some sample_room = Some r
         ∧ token_calls (run (create_daily_room (Some (FormStr "CA123"))) sample_world).1
             = [(url r, 300)].
Proof.
  apply (successful_sequence_calls (Some (FormStr "CA123")) sample_world).
  reflexivity.
Defined.

(** The same for the whole request: the handler adds no call of its own. *)
Lemma successful_request_calls (request : Request) (w : World) t content :
  run (twilio_start_bot request) w = (t, Return content) →
  room_calls t = [room_params] ∧ ∃ room_url, token_calls t = [(room_url, 300)].
Proof.
  rewrite twilio_start_bot_run.
  destruct (run (read_form request) w) as [t0 [data|e]]; [|discriminate].
  cbn zeta. destruct (truth (data !! "CallSid")); [|discriminate].
  destruct (run (create_daily_room (data !! "CallSid")) w) as [t1 [room|e]] eqn:Hrun;
    [|discriminate].
  intros [= <- _].
  apply create_daily_room_Return in Hrun as (r & token & _ & _ & _ & _ & ->).
  split; [reflexivity|]. by exists (url r).
Qed.

(** ** The launch command *)

Lemma append_empty_r (s : string) : s +:+ "" = s.
Proof.
  induction s as [|c s IH]; [reflexivity|].
  change (String c (s +:+ "") = String c s). by rewrite IH.
Qed.

Lemma bot_proc_command_line (room : DailyRoomObject) (token : option string)
    (callId : option form_value) :
  bot_proc room token callId
  = command_line "python3 -m bot_twilio"
      [("-u", url room); ("-t", str token); ("-i", str callId);
       ("-s", sip_endpoint (config room))].
Proof.
  unfold bot_proc, command_line. cbn [flag_arguments].
  rewrite append_empty_r. reflexivity.
Qed.

(** The command string of a provisioning sequence that returns: exactly
    one process is launched, through the shell, with the text
    [python3 -m bot_twilio -u <url> -t <token> -i <call id> -s <sip endpoint>],
    in which the url and the sip endpoint of the room the room service
    returned, the token the token service returned and the text of the call
    identifier stand as they are, unquoted.  What the worker receives is what
    the shell makes of this text. *)
Theorem launch_command_round_trip (callId : option form_value) (w : World) t room :
  run (create_daily_room callId) w = (t, Return room) →
  ∃ r token,
    room = Some r
    ∧ daily_create_room w room_params = Return (Some r)
    ∧ daily_get_token w (url r) MAX_SESSION_TIME = Return (Some token)
    ∧ launches t =
        [([command_line "python3 -m bot_twilio"
             [("-u", url r); ("-t", token); ("-i", str callId);
              ("-s", sip_endpoint (config r))]],
          true, 1, module_dir w)].
Proof.
  intros (r & token & -> & Hroom & Htoken & Htruth & ->)%create_daily_room_Return.
  destruct (truth_token_Some token Htruth) as (s & -> & _ & _).
  exists r, s. repeat split; [done..|].
  by rewrite bot_proc_command_line.
Qed.

Lemma launch_command_round_trip_witness :
  ∃ r token,
    Some sample_room = Some r
    ∧ daily_create_room sample_world room_params = Return (Some r)
    ∧ daily_get_token sample_world (url r) MAX_SESSION_TIME = Return (Some token)
    ∧ launches (run (create_daily_room (Some (FormStr "CA123"))) sample_world).1 =
        [([command_line "python3 -m bot_twilio"
             [("-u", url r); ("-t", token); ("-i", "CA123");
              ("-s", sip_endpoint (config r))]],
          true, 1, "/srv/bot")].
Proof.
  apply (launch_command_round_trip (Some (FormStr "CA123")) sample_world).
  reflexivity.
Defined.

(** The spec's scenario 1, word for word. *)
Example scenario_1_launch :
  launches (run (twilio_start_bot sample_request) sample_world).1
  = [(["python3 -m bot_twilio -u https://x.daily.co/abc -t tok456 -i CA123 -s sip:abc@x.daily.co"],
      true, 1, "/srv/bot")].
Proof. vm_compute. reflexivity. Qed.

(** Split at white space, as the shell does with a command free of quoting
    and metacharacters, it is the program and the four flags with their
    values. *)
Example scenario_1_words :
  String.words (bot_proc sample_room (Some "tok456") (Some (FormStr "CA123")))
  = ["python3"; "-m"; "bot_twilio"; "-u"; "https://x.daily.co/abc"; "-t"; "tok456";
     "-i"; "CA123"; "-s"; "sip:abc@x.daily.co"].
Proof. vm_compute. reflexivity. Qed.

(** C5, at an input where the code departs from it: a call identifier with
    a blank.  The request succeeds and one process is launched, but the
    identifier is put into the shell command unquoted, so the shell splits it:
    the worker is given [-i CA] and a stray word [123], five words after the
    four flags instead of four values, and the value of [-i] is not the
    identifier the request carried. *)
Example CallSid_with_blank_is_split :
  sent_status (run (twilio_start_bot spaced_request) sample_world).2 = Some 200
  ∧ launches (run (twilio_start_bot spaced_request) sample_world).1
      = [([bot_proc sample_room (Some "tok456") (Some (FormStr "CA 123"))],
          true, 1, "/srv/bot")]
  ∧ shell_words (bot_proc sample_room (Some "tok456") (Some (FormStr "CA 123")))
      = ["python3"; "-m"; "bot_twilio"; "-u"; "https://x.daily.co/abc"; "-t"; "tok456";
         "-i"; "CA"; "123"; "-s"; "sip:abc@x.daily.co"]
  ∧ "CA" ≠ "CA 123".
Proof.
  split; [vm_compute; reflexivity|]. split; [vm_compute; reflexivity|].
  split; [vm_compute; reflexivity | discriminate].
Qed.

(** ** The room test of line 72 *)

Lemma create_daily_room_split (callId : option form_value) (w : World) :
  run (create_daily_room callId) w
  = run ('(room, token) ← room_and_token; validate_and_launch callId room token) w.
Proof.
  unfold create_daily_room, room_and_token, validate_and_launch. unfold_M.
  destruct (daily_create_room w room_params) as [[room|]|e]; try reflexivity.
  destruct (daily_get_token w (url room) MAX_SESSION_TIME) as [token|e]; [|reflexivity].
  change (truth (Some room)) with true.
  destruct (truth token); cbn [negb orb]; [|reflexivity].
  destruct (subprocess_Popen w _ true 1 (module_dir w)) as [[]|e]; [reflexivity|].
  destruct (is_Exception e); reflexivity.
Qed.

(** C9. When the room service answers [None], the function has failed on
    line 67, at [room.url], with an [AttributeError] and before any token
    call; it never reaches line 72, so the [not room] half of the test there
    is never true: in every run that reaches the test, [room] is an object,
    and the controlled error of line 73 is decided by the token alone. *)
Theorem room_branch_unreachable (callId : option form_value) (w : World) :
  daily_create_room w room_params = Return None →
  run (create_daily_room callId) w
    = ([Print "Creating new room..."; CreateRoom room_params],
       Raise (AttributeError "'NoneType' object has no attribute 'url'"))
  ∧ (∀ t room token, run room_and_token w ≠ (t, Return (room, token)))
  ∧ (∀ w' t room token,
       run room_and_token w' = (t, Return (room, token)) →
       truth room = true
       ∧ negb (truth room) || negb (truth token) = negb (truth token)).
Proof.
  intros Hroom. split; [by rewrite create_daily_room_run, Hroom|].
  split.
  - intros t room token. unfold room_and_token. unfold_M. by rewrite Hroom.
  - intros w' t room token. unfold room_and_token. unfold_M.
    destruct (daily_create_room w' room_params) as [[r|]|e]; try discriminate.
    destruct (daily_get_token w' (url r) MAX_SESSION_TIME) as [tok|e]; try discriminate.
    by intros [= <- <- <-].
Qed.

Lemma room_branch_unreachable_witness :
  run (create_daily_room (Some (FormStr "CA123"))) roomless_world
    = ([Print "Creating new room..."; CreateRoom room_params],
       Raise (AttributeError "'NoneType' object has no attribute 'url'"))
  ∧ (∀ t room token, run room_and_token roomless_world ≠ (t, Return (room, token)))
  ∧ (∀ w' t room token,
       run room_and_token w' = (t, Return (room, token)) →
       truth room = true
       ∧ negb (truth room) || negb (truth token) = negb (truth token)).
Proof.
  apply (room_branch_unreachable (Some (FormStr "CA123")) roomless_world).
  reflexivity.
Defined.

(** ** The response *)

Lemma twilio_start_bot_Return (request : Request) (w : World) t content :
  run (twilio_start_bot request) w = (t, Return content) →
  content = to_xml (play HOLD_MUSIC 10 VoiceResponse).
Proof.
  rewrite twilio_start_bot_run.
  destruct (run (read_form request) w) as [t0 [data|e]]; [|discriminate].
  cbn zeta. destruct (truth (data !! "CallSid")); [|discriminate].
  destruct (run (create_daily_room (data !! "CallSid")) w) as [t1 [room|e]];
    [|discriminate].
  by intros [= _ <-].
Qed.

(** C6. A request whose provisioning succeeds is answered with status 200
    and a plain-text body; the body is the serialised voice response, a
    [Response] element holding exactly one [Play] element, whose [loop]
    attribute is [10] and whose text is the hold-music url. *)
Theorem hold_music_response (request : Request) (w : World) t content :
  run (twilio_start_bot request) w = (t, Return content) →
  post_twilio_start_bot request w
    = (t, {| status := 200; media_type := "text/plain; charset=utf-8";
             body := Text content |})
  ∧ content = to_xml (play HOLD_MUSIC 10 VoiceResponse)
  ∧ elements_named "Play" (play HOLD_MUSIC 10 VoiceResponse)
      = [Verb "Play" [("loop", "10")]
           (Some "http://com.twilio.sounds.music.s3.amazonaws.com/MARKOVICHAMP-Borghestral.mp3")
           []]
  ∧ content = HOLD_RESPONSE.
Proof.
  intros Hrun. split.
  - unfold post_twilio_start_bot. by rewrite Hrun.
  - apply twilio_start_bot_Return in Hrun as ->. repeat split.
Qed.

Lemma hold_music_response_witness :
  post_twilio_start_bot sample_request sample_world
    = ((run (twilio_start_bot sample_request) sample_world).1,
       {| status := 200; media_type := "text/plain; charset=utf-8";
          body := Text HOLD_RESPONSE |})
  ∧ HOLD_RESPONSE = to_xml (play HOLD_MUSIC 10 VoiceResponse)
  ∧ elements_named "Play" (play HOLD_MUSIC 10 VoiceResponse)
      = [Verb "Play" [("loop", "10")]
           (Some "http://com.twilio.sounds.music.s3.amazonaws.com/MARKOVICHAMP-Borghestral.mp3")
           []]
  ∧ HOLD_RESPONSE = HOLD_RESPONSE.
Proof.
  apply (hold_music_response sample_request sample_world). vm_compute. reflexivity.
Defined.

(** C10. The body of a successful response does not depend on the request
    or on what the services answered: two successful runs, on any two
    requests in any two worlds, return the same text, the constant
    [HOLD_RESPONSE], and so send the same response. *)
Theorem response_is_constant
    (request1 request2 : Request) (w1 w2 : World) t1 t2 content1 content2 :
  run (twilio_start_bot request1) w1 = (t1, Return content1) →
  run (twilio_start_bot request2) w2 = (t2, Return content2) →
  content1 = HOLD_RESPONSE
  ∧ content1 = content2
  ∧ (post_twilio_start_bot request1 w1).2 = (post_twilio_start_bot request2 w2).2.
Proof.
  intros Hrun1 Hrun2. unfold post_twilio_start_bot. rewrite Hrun1, Hrun2.
  apply twilio_start_bot_Return in Hrun1 as ->.
  apply twilio_start_bot_Return in Hrun2 as ->.
  repeat split.
Qed.

Lemma response_is_constant_witness :
  HOLD_RESPONSE = HOLD_RESPONSE
  ∧ HOLD_RESPONSE = HOLD_RESPONSE
  ∧ (post_twilio_start_bot sample_request sample_world).2
      = (post_twilio_start_bot other_request other_world).2.
Proof.
  apply (response_is_constant sample_request other_request sample_world other_world
           (run (twilio_start_bot sample_request) sample_world).1
           (run (twilio_start_bot other_request) other_world).1).
  - vm_compute. reflexivity.
  - vm_compute. reflexivity.
Defined.

(** ** A body that is not a form *)

(** C7. When reading the form raises an exception, the handler goes on with
    an empty field set: it behaves as on a form with no field, and what ends
    the request is the [CallSid] check of line 98.  A form whose [CallSid] is
    the empty string ends the same way. *)
Theorem unparsable_form_is_empty_form (request : Request) (w : World) (e : exn) :
  form request = Raise e →
  is_Exception e = true →
  run (read_form request) w = ([], Return ∅)
  ∧ run (twilio_start_bot request) w = run (twilio_start_bot {| form := Return [] |}) w
  ∧ run (twilio_start_bot request) w
      = ([Print "POST /twilio_start_bot"],
         Raise (HTTPException 500 "Missing 'CallSid' in request"))
  ∧ ∀ fields,
      dict fields !! "CallSid" = Some (FormStr "") →
      run (twilio_start_bot {| form := Return fields |}) w
        = run (twilio_start_bot request) w.
Proof.
  intros Hform Hexc.
  assert (run (read_form request) w = ([], Return ∅)) as Hread
    by (by rewrite read_form_run, Hform, Hexc).
  split; [exact Hread|].
  rewrite !twilio_start_bot_run, Hread.
  split; [reflexivity|]. split; [reflexivity|].
  intros fields Hempty. rewrite twilio_start_bot_run, read_form_run.
  cbn [form]. cbn zeta. by rewrite Hempty.
Qed.

Lemma unparsable_form_is_empty_form_witness :
  run (read_form garbled_request) sample_world = ([], Return ∅)
  ∧ run (twilio_start_bot garbled_request) sample_world
      = run (twilio_start_bot {| form := Return [] |}) sample_world
  ∧ run (twilio_start_bot garbled_request) sample_world
      = ([Print "POST /twilio_start_bot"],
         Raise (HTTPException 500 "Missing 'CallSid' in request"))
  ∧ ∀ fields,
      dict fields !! "CallSid" = Some (FormStr "") →
      run (twilio_start_bot {| form := Return fields |}) sample_world
        = run (twilio_start_bot garbled_request) sample_world.
Proof.
  apply (unparsable_form_is_empty_form garbled_request sample_world
           (PyException "ValueError" "invalid form data"));
    reflexivity.
Defined.

(** An exception that is not an [Exception] (a cancelled request) is not
    caught by line 93 and leaves the handler as it is. *)
Lemma cancelled_form_propagates (request : Request) (w : World) (e : exn) :
  form request = Raise e →
  is_Exception e = false →
  run (twilio_start_bot request) w = ([Print "POST /twilio_start_bot"], Raise e).
Proof.
  intros Hform Hexc. by rewrite twilio_start_bot_run, read_form_run, Hform, Hexc.
Qed.

(** ** Start-up *)

Lemma check_env_vars_run (vars : list string) (w : World) :
  run (check_env_vars vars) w =
  ([], match first_missing vars (os_environ w) with
       | Some env_var => Raise (missing_variable env_var)
       | None => Return tt
       end).
Proof.
  induction vars as [|env_var vars IH]; [reflexivity|].
  cbn [check_env_vars]. rewrite run_bind. cbn [run ask].
  unfold first_missing. rewrite filter_cons.
  destruct (decide (os_environ w !! env_var = None)) as [Habsent|Hpresent].
  - reflexivity.
  - fold (run (check_env_vars vars) w). rewrite IH. reflexivity.
Qed.

Lemma first_missing_Some (vars : list string) (environ : gmap string string) env_var :
  first_missing vars environ = Some env_var →
  ∃ present rest,
    vars = present ++ env_var :: rest
    ∧ environ !! env_var = None
    ∧ ∀ v, v ∈ present → is_Some (environ !! v).
Proof.
  unfold first_missing. induction vars as [|v vars IH]; [discriminate|].
  rewrite filter_cons. destruct (decide (environ !! v = None)) as [Habsent|Hpresent].
  - intros [= ->]. exists [], vars. split; [reflexivity|]. split; [done|].
    intros v' Hin. by apply elem_of_nil in Hin.
  - intros (present & rest & -> & Hnone & Hall)%IH.
    exists (v :: present), rest. split; [reflexivity|]. split; [done|].
    intros v' [->|Hin]%elem_of_cons; [|by apply Hall].
    by apply not_eq_None_Some.
Qed.

Lemma first_missing_None (vars : list string) (environ : gmap string string) :
  first_missing vars environ = None →
  ∀ v, v ∈ vars → is_Some (environ !! v).
Proof.
  unfold first_missing. intros Hhead%head_None v Hin.
  apply not_eq_None_Some. intros Hnone.
  assert (v ∈ filter (λ env_var, environ !! env_var = None) vars) as Hf
    by (by apply list_elem_of_filter).
  rewrite Hhead in Hf. by apply elem_of_nil in Hf.
Qed.

(** C8, as the code has it.  If a required variable is absent from the
    environment, [main] raises before the server is started, and the message
    names one variable: a required and absent one, the first such in the
    order of [REQUIRED_ENV_VARS].  So the absent variable is the one named
    whenever every other required variable is set; with several absent, only
    the first is named. *)
Theorem missing_env_var_refuses_start (w : World) (env_var : string) :
  env_var ∈ REQUIRED_ENV_VARS →
  os_environ w !! env_var = None →
  ∃ missing,
    run main w
      = ([], Raise (PyException "Exception"
                      ("Missing environment variable: " +:+ missing +:+ ".")))
    ∧ server_starts (run main w).1 = []
    ∧ missing ∈ REQUIRED_ENV_VARS
    ∧ os_environ w !! missing = None
    ∧ (∃ present rest,
         REQUIRED_ENV_VARS = present ++ missing :: rest
         ∧ ∀ v, v ∈ present → is_Some (os_environ w !! v))
    ∧ ((∀ v, v ∈ REQUIRED_ENV_VARS → v ≠ env_var → is_Some (os_environ w !! v)) →
       missing = env_var).
Proof.
  intros Hreq Habsent.
  destruct (first_missing REQUIRED_ENV_VARS (os_environ w)) as [missing|] eqn:Hfirst.
  - assert (run main w = ([], Raise (missing_variable missing))) as Hmain.
    { unfold main. by rewrite run_bind, check_env_vars_run, Hfirst. }
    destruct (first_missing_Some _ _ _ Hfirst) as (present & rest & Hvars & Hnone & Hall).
    assert (missing ∈ REQUIRED_ENV_VARS) as Hin
      by (rewrite Hvars; apply elem_of_app; right; apply elem_of_cons; by left).
    exists missing. rewrite Hmain. repeat split; try done.
    + by exists present, rest.
    + intros Hothers. destruct (decide (missing = env_var)) as [|Hne]; [done|].
      destruct (Hothers missing Hin Hne) as [x Hx]. congruence.
  - destruct (first_missing_None _ _ Hfirst env_var Hreq) as [x Hx]. congruence.
Qed.

Lemma missing_env_var_refuses_start_witness :
  ∃ missing,
    run main keyless_world
      = ([], Raise (PyException "Exception"
                      ("Missing environment variable: " +:+ missing +:+ ".")))
    ∧ server_starts (run main keyless_world).1 = []
    ∧ missing ∈ REQUIRED_ENV_VARS
    ∧ os_environ keyless_world !! missing = None
    ∧ (∃ present rest,
         REQUIRED_ENV_VARS = present ++ missing :: rest
         ∧ ∀ v, v ∈ present → is_Some (os_environ keyless_world !! v))
    ∧ ((∀ v, v ∈ REQUIRED_ENV_VARS → v ≠ "DAILY_API_KEY" →
             is_Some (os_environ keyless_world !! v)) →
       missing = "DAILY_API_KEY").
Proof.
  apply (missing_env_var_refuses_start keyless_world "DAILY_API_KEY").
  - unfold REQUIRED_ENV_VARS. apply elem_of_cons. right. apply elem_of_cons. by left.
  - vm_compute. reflexivity.
Defined.

(** C8 as stated fails where both variables are absent: DAILY_API_KEY is
    required and absent, the process refuses to start, and the message names
    OPENAI_API_KEY only. *)
Lemma both_absent_only_first_named :
  "DAILY_API_KEY" ∈ REQUIRED_ENV_VARS
  ∧ os_environ bare_world !! "DAILY_API_KEY" = None
  ∧ run main bare_world
      = ([], Raise (PyException "Exception"
                      "Missing environment variable: OPENAI_API_KEY."))
  ∧ "Missing environment variable: OPENAI_API_KEY."
      ≠ "Missing environment variable: DAILY_API_KEY.".
Proof.
  split; [apply elem_of_cons; right; apply elem_of_cons; by left|].
  split; [vm_compute; reflexivity|]. split; [vm_compute; reflexivity | discriminate].
Qed.

(** With every required variable set, the check passes and the server is
    started with the parsed arguments. *)
Lemma all_env_vars_start_server (w : World) (ns : Namespace) :
  (∀ v, v ∈ REQUIRED_ENV_VARS → is_Some (os_environ w !! v)) →
  parse_args w = Return ns →
  server_starts (run main w).1 = [("bot_runner:app", ns)].
Proof.
  intros Hall Hargs.
  destruct (first_missing REQUIRED_ENV_VARS (os_environ w)) as [missing|] eqn:Hfirst.
  { destruct (first_missing_Some _ _ _ Hfirst) as (present & rest & Hvars & Hnone & _).
    destruct (Hall missing) as [x Hx]; [|congruence].
    rewrite Hvars. apply elem_of_app. right. apply elem_of_cons. by left. }
  unfold main. rewrite run_bind, check_env_vars_run, Hfirst, run_bind.
  cbn [run]. rewrite Hargs. unfold try_except, perform, print, run.
  destruct (uvicorn_run w "bot_runner:app" ns) as [[]|e]; [reflexivity|].
  destruct (is_KeyboardInterrupt e); reflexivity.
Qed.

(** * Further properties *)

(** ** The failures of the provisioner *)

Lemma empty_token_fails_before_launch_witness :
  run (create_daily_room (Some (FormStr "CA123")))
      (with_token_service (Return (Some "")) sample_world)
    = (provisioning_prefix sample_room,
       Raise (HTTPException 500 "Failed to get room or token"))
  ∧ launches (provisioning_prefix sample_room) = [].
Proof.
  apply (empty_token_fails_before_launch (Some (FormStr "CA123"))
           (with_token_service (Return (Some "")) sample_world) sample_room (Some ""));
    reflexivity.
Defined.

Lemma launch_only_after_validation_witness :
  ∃ room token,
    daily_create_room sample_world room_params = Return (Some room)
    ∧ daily_get_token sample_world (url room) MAX_SESSION_TIME = Return (Some token)
    ∧ token ≠ "".
Proof.
  apply (launch_only_after_validation (Some (FormStr "CA123")) sample_world
           (run (create_daily_room (Some (FormStr "CA123"))) sample_world).1
           (run (create_daily_room (Some (FormStr "CA123"))) sample_world).2).
  - reflexivity.
  - vm_compute. discriminate.
Defined.

(** X1. When the room service raises, the provisioner raises the same
    exception, unwrapped, right after the call; no token is asked for and
    nothing is launched, in the provisioner and in the whole handler, for any
    request. *)
Theorem room_service_error_propagates (w : World) (e : exn) :
  daily_create_room w room_params = Raise e →
  (∀ callId,
     run (create_daily_room callId) w
       = ([Print "Creating new room..."; CreateRoom room_params], Raise e))
  ∧ (∀ request, ∃ t e',
       run (twilio_start_bot request) w = (t, Raise e')
       ∧ token_calls t = [] ∧ launches t = []).
Proof.
  intros Hroom.
  assert (∀ callId,
    run (create_daily_room callId) w
      = ([Print "Creating new room..."; CreateRoom room_params], Raise e)) as Hprov
    by (intros callId; by rewrite create_daily_room_run, Hroom).
  split; [exact Hprov|].
  intros request. rewrite twilio_start_bot_run.
  destruct (run (read_form request) w) as [t0 [data|e0]]; [|by eexists _, _].
  cbn zeta. destruct (truth (data !! "CallSid")); [|by eexists _, _].
  rewrite Hprov. by eexists _, _.
Qed.

Lemma room_service_error_propagates_witness :
  (∀ callId,
     run (create_daily_room callId) (with_room_service (Raise network_error) sample_world)
       = ([Print "Creating new room..."; CreateRoom room_params], Raise network_error))
  ∧ (∀ request, ∃ t e',
       run (twilio_start_bot request) (with_room_service (Raise network_error) sample_world)
         = (t, Raise e')
       ∧ token_calls t = [] ∧ launches t = []).
Proof.
  apply (room_service_error_propagates
           (with_room_service (Raise network_error) sample_world) network_error).
  reflexivity.
Defined.

(** X2. When the token service raises, the provisioner raises the same
    exception; the room has been created by then (one room call, which nothing
    undoes) and nothing is launched. *)
Theorem token_service_error_propagates
    (callId : option form_value) (w : World) (room : DailyRoomObject) (e : exn) :
  daily_create_room w room_params = Return (Some room) →
  daily_get_token w (url room) MAX_SESSION_TIME = Raise e →
  ∃ t,
    run (create_daily_room callId) w = (t, Raise e)
    ∧ service_calls t = [CreateRoom room_params; GetToken (url room) 300].
Proof.
  intros Hroom Htoken. rewrite create_daily_room_run, Hroom, Htoken.
  by eexists.
Qed.

Lemma token_service_error_propagates_witness :
  ∃ t,
    run (create_daily_room (Some (FormStr "CA123")))
        (with_token_service (Raise network_error) sample_world)
      = (t, Raise network_error)
    ∧ service_calls t = [CreateRoom room_params; GetToken (url sample_room) 300].
Proof.
  apply (token_service_error_propagates (Some (FormStr "CA123"))
           (with_token_service (Raise network_error) sample_world) sample_room network_error);
    reflexivity.
Defined.

(** X3. When [Popen] raises an [Exception], the provisioner raises
    [HTTPException(500)] whose detail is [Failed to start subprocess: ]
    followed by the text of that exception; the room and the token have been
    obtained by then, and the room is not returned. *)
Theorem launch_failure_reported
    (callId : option form_value) (w : World) (room : DailyRoomObject)
    (token : option string) (e : exn) :
  daily_create_room w room_params = Return (Some room) →
  daily_get_token w (url room) MAX_SESSION_TIME = Return token →
  truth token = true →
  subprocess_Popen w [bot_proc room token callId] true 1 (module_dir w) = Raise e →
  is_Exception e = true →
  ∃ t,
    run (create_daily_room callId) w
      = (t, Raise (HTTPException 500 ("Failed to start subprocess: " +:+ str e)))
    ∧ service_calls t
        = [CreateRoom room_params; GetToken (url room) 300;
           Popen [bot_proc room token callId] true 1 (module_dir w)].
Proof.
  intros Hroom Htoken Htruth Hpopen Hexc.
  rewrite create_daily_room_run, Hroom, Htoken, Htruth. cbn zeta.
  rewrite Hpopen, Hexc. by eexists.
Qed.

Lemma launch_failure_reported_witness :
  ∃ t,
    run (create_daily_room (Some (FormStr "CA123")))
        (with_Popen (Raise python3_not_found) sample_world)
      = (t, Raise (HTTPException 500
                     ("Failed to start subprocess: " +:+ str python3_not_found)))
    ∧ service_calls t
        = [CreateRoom room_params; GetToken (url sample_room) 300;
           Popen [bot_proc sample_room (Some "tok456") (Some (FormStr "CA123"))]
             true 1 (module_dir (with_Popen (Raise python3_not_found) sample_world))].
Proof.
  apply (launch_failure_reported (Some (FormStr "CA123"))
           (with_Popen (Raise python3_not_found) sample_world) sample_room
           (Some "tok456") python3_not_found);
    reflexivity.
Defined.

(** ** The order of the calls *)

Lemma service_calls_create_daily_room (callId : option form_value) (w : World) t r :
  run (create_daily_room callId) w = (t, r) →
  ∃ room_url command,
    service_calls t `prefix_of`
      [CreateRoom room_params; GetToken room_url 300;
       Popen [command] true 1 (module_dir w)].
Proof.
  rewrite create_daily_room_run.
  destruct (daily_create_room w room_params) as [[room|]|e];
    [|intros [= <- _]; exists "", ""; by eexists [_; _]..].
  destruct (daily_get_token w (url room) MAX_SESSION_TIME) as [token|e];
    [|intros [= <- _]; exists (url room), ""; by eexists [_]].
  destruct (truth token);
    [|intros [= <- _]; exists (url room), ""; by eexists [_]].
  cbn zeta.
  destruct (subprocess_Popen w _ true 1 (module_dir w)) as [[]|e];
    intros [= <- _]; exists (url room), (bot_proc room token callId); by exists [].
Qed.

Lemma service_calls_app (t1 t2 : trace) :
  service_calls (t1 ++ t2) = service_calls t1 ++ service_calls t2.
Proof. apply List.filter_app. Qed.

(** X4. In every run of the handler, whatever the request and whatever the
    services answer, the calls made are an initial part of the sequence
    room creation, token request, launch: each is made at most once, none is
    retried, no token is asked for before a room was asked for, and nothing is
    launched before the token was asked for.  The room is always asked for
    with the same parameters and the token with an expiry of 300. *)
Theorem calls_in_fixed_order (request : Request) (w : World) :
  ∃ room_url command,
    service_calls (run (twilio_start_bot request) w).1 `prefix_of`
      [CreateRoom room_params; GetToken room_url 300;
       Popen [command] true 1 (module_dir w)].
Proof.
  rewrite twilio_start_bot_run.
  destruct (run (read_form request) w) as [t0 [data|e]];
    [|exists "", ""; by eexists [_; _; _]].
  cbn zeta. destruct (truth (data !! "CallSid"));
    [|exists "", ""; by eexists [_; _; _]].
  destruct (run (create_daily_room (data !! "CallSid")) w) as [t r] eqn:Hrun.
  destruct (service_calls_create_daily_room _ _ _ _ Hrun) as (room_url & command & Hprefix).
  exists room_url, command.
  destruct r as [room|e]; cbn [fst];
    change (Print ?a :: Print ?b :: ?l) with ([Print a; Print b] ++ l);
    rewrite !service_calls_app; cbn [service_calls List.filter is_service_call app];
    by rewrite ?app_nil_r.
Qed.

(** ** The fields of the form *)

Lemma dict_snoc {V} (items : list (string * V)) (k : string) (v : V) :
  dict (items ++ [(k, v)]) = <[k := v]> (dict items).
Proof. unfold dict. by rewrite foldl_app. Qed.

Lemma foldl_insert_other {V} (k : string) (rest : list (string * V)) (d : gmap string V) :
  (∀ kv, kv ∈ rest → kv.1 ≠ k) →
  foldl (λ d kv, <[kv.1 := kv.2]> d) d rest !! k = d !! k.
Proof.
  revert d. induction rest as [|[k' v'] rest IH]; intros d Hother; [reflexivity|].
  cbn [foldl]. rewrite IH.
  - apply lookup_insert_ne. apply (Hother (k', v')). by left.
  - intros kv Hin. apply Hother. by right.
Qed.

(** [dict] keeps, for each name, the value of the last field of that name,
    and has no entry for a name that no field has. *)
Lemma dict_lookup_last {V} (before after : list (string * V)) (k : string) (v : V) :
  (∀ kv, kv ∈ after → kv.1 ≠ k) →
  dict (before ++ (k, v) :: after) !! k = Some v.
Proof.
  intros Hother. unfold dict. rewrite foldl_app. cbn [foldl].
  rewrite foldl_insert_other by done. apply lookup_insert_eq.
Qed.

Lemma dict_lookup_absent {V} (items : list (string * V)) (k : string) :
  (∀ kv, kv ∈ items → kv.1 ≠ k) → dict items !! k = None.
Proof. intros Hother. unfold dict. by rewrite foldl_insert_other. Qed.

Lemma twilio_start_bot_same_CallSid (request1 request2 : Request) (w : World)
    (fields1 fields2 : list (string * form_value)) :
  form request1 = Return fields1 →
  form request2 = Return fields2 →
  dict fields1 !! "CallSid" = dict fields2 !! "CallSid" →
  run (twilio_start_bot request1) w = run (twilio_start_bot request2) w.
Proof.
  intros Hform1 Hform2 Hsame.
  rewrite !twilio_start_bot_run, !read_form_run, Hform1, Hform2.
  cbn zeta. by rewrite Hsame.
Qed.

(** X5. The handler reads one thing of the form, the value of the last
    field named [CallSid]: a form in which that field is preceded and
    followed by any other fields (earlier [CallSid] fields among them) is
    handled exactly as the form holding that field alone, in trace and in
    result. *)
Theorem last_CallSid_field_decides
    (before after : list (string * form_value)) (callId : form_value) (w : World) :
  (∀ kv, kv ∈ after → kv.1 ≠ "CallSid") →
  run (twilio_start_bot {| form := Return (before ++ ("CallSid", callId) :: after) |}) w
  = run (twilio_start_bot {| form := Return [("CallSid", callId)] |}) w.
Proof.
  intros Hother. eapply twilio_start_bot_same_CallSid; [reflexivity..|].
  rewrite dict_lookup_last by done.
  symmetry. by apply (dict_lookup_last [] []), Forall_forall.
Qed.

Lemma last_CallSid_field_decides_witness :
  run (twilio_start_bot verbose_request) sample_world
  = run (twilio_start_bot {| form := Return [("CallSid", FormStr "CA123")] |}) sample_world.
Proof.
  apply (last_CallSid_field_decides [("AccountSid", FormStr "AC42")]
           [("To", FormStr "+15550199")] (FormStr "CA123") sample_world).
  intros kv [->|Hin%elem_of_nil]%elem_of_cons; [discriminate | done].
Defined.

(** X6. A form none of whose fields is named [CallSid], however many fields
    it has, is rejected with the 500 of line 98 right after the first
    [print]. *)
Theorem no_CallSid_field_rejected (fields : list (string * form_value)) (w : World) :
  (∀ kv, kv ∈ fields → kv.1 ≠ "CallSid") →
  run (twilio_start_bot {| form := Return fields |}) w
  = ([Print "POST /twilio_start_bot"],
     Raise (HTTPException 500 "Missing 'CallSid' in request")).
Proof.
  intros Hother. rewrite twilio_start_bot_run, read_form_run. cbn [form]. cbn zeta.
  by rewrite dict_lookup_absent.
Qed.

Lemma no_CallSid_field_rejected_witness :
  run (twilio_start_bot anonymous_request) sample_world
  = ([Print "POST /twilio_start_bot"],
     Raise (HTTPException 500 "Missing 'CallSid' in request")).
Proof.
  apply (no_CallSid_field_rejected [("From", FormStr "+15550100")] sample_world).
  intros kv [->|Hin%elem_of_nil]%elem_of_cons; [discriminate | done].
Defined.

(** X7. An exception that is not an [Exception], raised while the form is
    read, is not taken for an empty form: it leaves the handler as it is,
    after the first [print] and before any call. *)
Theorem cancelled_request_not_swallowed (request : Request) (w : World) (e : exn) :
  form request = Raise e →
  is_Exception e = false →
  run (twilio_start_bot request) w = ([Print "POST /twilio_start_bot"], Raise e)
  ∧ service_calls (run (twilio_start_bot request) w).1 = [].
Proof.
  intros Hform Hexc.
  rewrite twilio_start_bot_run, read_form_run, Hform, Hexc. by split.
Qed.

Lemma cancelled_request_not_swallowed_witness :
  run (twilio_start_bot cancelled_request) sample_world
    = ([Print "POST /twilio_start_bot"], Raise (PyBaseException "CancelledError" ""))
  ∧ service_calls (run (twilio_start_bot cancelled_request) sample_world).1 = [].
Proof.
  apply (cancelled_request_not_swallowed cancelled_request sample_world
           (PyBaseException "CancelledError" ""));
    reflexivity.
Defined.

(** ** What is sent and what is printed *)



Lemma printed_successful_request (request : Request) (w : World) t content :
  run (twilio_start_bot request) w = (t, Return content) →
  ∃ data room,
    (run (read_form request) w).2 = Return data
    ∧ daily_create_room w room_params = Return (Some room)
    ∧ printed t
        = ["POST /twilio_start_bot";
           "CallId: " +:+ str (data !! "CallSid");
           "Creating new room...";
           "Daily room: " +:+ url room +:+ " " +:+ sip_endpoint (config room);
           "Put Twilio on hold..."].
Proof.
  rewrite twilio_start_bot_run.
  destruct (run (read_form request) w) as [t0 [data|e]]; [|discriminate].
  cbn zeta. destruct (truth (data !! "CallSid")); [|discriminate].
  destruct (run (create_daily_room (data !! "CallSid")) w) as [t1 [room|e]] eqn:Hrun;
    [|discriminate].
  intros [= <- _].
  apply create_daily_room_Return in Hrun as (r & token & _ & Hroom & _ & _ & ->).
  by exists data, r.
Qed.

(** X9. What a successful request prints does not depend on the token, on
    the launch or on the module's directory: two successful runs on the same
    request, in worlds whose room services give the same answer, print the
    same lines, whatever their token services answer. *)
Theorem token_not_printed (request : Request) (w1 w2 : World) t1 t2 content1 content2 :
  daily_create_room w1 room_params = daily_create_room w2 room_params →
  run (twilio_start_bot request) w1 = (t1, Return content1) →
  run (twilio_start_bot request) w2 = (t2, Return content2) →
  printed t1 = printed t2.
Proof.
  intros Hsame (data1 & room1 & Hdata1 & Hroom1 & ->)%printed_successful_request
               (data2 & room2 & Hdata2 & Hroom2 & ->)%printed_successful_request.
  rewrite read_form_run in Hdata1, Hdata2. cbn [snd] in Hdata1, Hdata2.
  congruence.
Qed.

Lemma token_not_printed_witness :
  printed (run (twilio_start_bot sample_request) sample_world).1
  = printed (run (twilio_start_bot sample_request)
               (with_token_service (Return (Some "another-token")) sample_world)).1.
Proof.
  apply (token_not_printed sample_request sample_world
           (with_token_service (Return (Some "another-token")) sample_world)
           _ _ HOLD_RESPONSE HOLD_RESPONSE).
  - reflexivity.
  - vm_compute. reflexivity.
  - vm_compute. reflexivity.
Defined.

(** ** Start-up, further *)

Lemma check_env_vars_passed (vars : list string) (w : World) :
  run (check_env_vars vars) w = ([], Return tt) →
  ∀ v, v ∈ vars → is_Some (os_environ w !! v).
Proof.
  rewrite check_env_vars_run.
  destruct (first_missing vars (os_environ w)) eqn:Hfirst; [discriminate|].
  intros _. by apply first_missing_None.
Qed.

Lemma check_env_vars_all_present (vars : list string) (w : World) :
  (∀ v, v ∈ vars → is_Some (os_environ w !! v)) →
  run (check_env_vars vars) w = ([], Return tt).
Proof.
  intros Hall. rewrite check_env_vars_run.
  destruct (first_missing vars (os_environ w)) as [missing|] eqn:Hfirst; [|done].
  destruct (first_missing_Some _ _ _ Hfirst) as (present & rest & -> & Hnone & _).
  destruct (Hall missing) as [x Hx]; [|congruence].
  apply elem_of_app. right. by left.
Qed.

(** X10. The loop of lines 118-120 passes exactly when every listed
    variable is present in the environment; it tests presence only, so a
    variable set to the empty string passes. *)
Theorem env_check_passes_iff (vars : list string) (w : World) :
  run (check_env_vars vars) w = ([], Return tt)
  ↔ ∀ v, v ∈ vars → is_Some (os_environ w !! v).
Proof. split; [apply check_env_vars_passed | apply check_env_vars_all_present]. Qed.

(** X11. With every required variable set, what [main] does next is decided
    by the parser: if it raises (as [argparse] does to end the process), [main]
    ends with that exception and the server is not started; otherwise the
    server is started exactly once, for [bot_runner:app], with the parsed
    arguments. *)
Theorem main_starts_server_once (w : World) :
  (∀ v, v ∈ REQUIRED_ENV_VARS → is_Some (os_environ w !! v)) →
  match parse_args w with
  | Return ns => server_starts (run main w).1 = [("bot_runner:app", ns)]
  | Raise e => run main w = ([], Raise e)
  end.
Proof.
  intros Hall. destruct (parse_args w) as [ns|e] eqn:Hargs.
  - by apply all_env_vars_start_server.
  - unfold main. rewrite run_bind, (check_env_vars_all_present _ _ Hall), run_bind.
    cbn [run]. by rewrite Hargs.
Qed.

Lemma main_starts_server_once_witness :
  server_starts (run main sample_world).1
  = [("bot_runner:app", {| host := "0.0.0.0"; port := 7860; reload := true |})].
Proof.
  apply (main_starts_server_once sample_world).
  intros v [->|[->|Hin%elem_of_nil]%elem_of_cons]%elem_of_cons; [by eexists..|done].
Defined.

(** X12. Once the server runs, a [KeyboardInterrupt] out of [uvicorn.run]
    ends [main] normally, after the line [Bot runner shutting down...]; any
    other exception of [uvicorn.run] leaves [main] as it is, with nothing
    printed. *)
Theorem keyboard_interrupt_shuts_down (w : World) (ns : Namespace) (e : exn) :
  (∀ v, v ∈ REQUIRED_ENV_VARS → is_Some (os_environ w !! v)) →
  parse_args w = Return ns →
  uvicorn_run w "bot_runner:app" ns = Raise e →
  run main w
  = if is_KeyboardInterrupt e
    then ([UvicornRun "bot_runner:app" ns; Print "Bot runner shutting down..."], Return tt)
    else ([UvicornRun "bot_runner:app" ns], Raise e).
Proof.
  intros Hall%check_env_vars_all_present Hargs Hrun.
  unfold main. rewrite run_bind, Hall, run_bind. cbn [run]. rewrite Hargs.
  unfold try_except, perform, print, run. rewrite Hrun.
  destruct (is_KeyboardInterrupt e); reflexivity.
Qed.

Lemma keyboard_interrupt_shuts_down_witness :
  run main (with_uvicorn (Raise (PyBaseException "KeyboardInterrupt" "")) sample_world)
  = ([UvicornRun "bot_runner:app" {| host := "0.0.0.0"; port := 7860; reload := true |};
      Print "Bot runner shutting down..."], Return tt).
Proof.
  apply (keyboard_interrupt_shuts_down
           (with_uvicorn (Raise (PyBaseException "KeyboardInterrupt" "")) sample_world)
           {| host := "0.0.0.0"; port := 7860; reload := true |}
           (PyBaseException "KeyboardInterrupt" "")).
  - intros v [->|[->|Hin%elem_of_nil]%elem_of_cons]%elem_of_cons; [by eexists..|done].
  - reflexivity.
  - reflexivity.
Defined.

Lemma server_starts_main (w : World) :
  server_starts (run main w).1 = []
  ∨ ∃ ns, parse_args w = Return ns
          ∧ server_starts (run main w).1 = [("bot_runner:app", ns)].
Proof.
  unfold main. rewrite run_bind, check_env_vars_run.
  destruct (first_missing REQUIRED_ENV_VARS (os_environ w)); [by left|].
  rewrite run_bind. cbn [run].
  destruct (parse_args w) as [ns|e]; [|by left].
  right. exists ns. split; [done|].
  unfold try_except, perform, print, run.
  destruct (uvicorn_run w "bot_runner:app" ns) as [[]|e]; [done|].
  by destruct (is_KeyboardInterrupt e).
Qed.

(** X13. With the parser of lines 122-129, the server is never started
    with reloading off: whatever the command line and the environment, every
    start of the server is for [bot_runner:app] with [reload=True], and there
    is at most one. *)
Theorem reload_always_on (int : string → option Z) (argv : CommandLine) (w : World) :
  parse_args w = parser_parse_args int (os_environ w) argv →
  (List.length (server_starts (run main w).1) ≤ 1)%nat
  ∧ ∀ app ns, (app, ns) ∈ server_starts (run main w).1 →
              app = "bot_runner:app" ∧ reload ns = true.
Proof.
  intros Hparser.
  destruct (server_starts_main w) as [->|(ns & Hargs & ->)].
  - split; [cbn; lia|]. intros app ns' Hin. by apply elem_of_nil in Hin.
  - split; [cbn; lia|].
    intros app ns' [[= -> ->]|Hin%elem_of_nil]%elem_of_cons; [|done].
    split; [done|].
    rewrite Hparser in Hargs. unfold parser_parse_args in Hargs.
    destruct (match arg_port argv with Some _ => _ | None => _ end); [|discriminate].
    injection Hargs as <-. cbn. by destruct (arg_reload argv).
Qed.

Lemma reload_always_on_witness :
  (List.length
     (server_starts
        (run main (with_command_line (os_environ sample_world)
                     (parser_parse_args sample_int (os_environ sample_world)
                        {| arg_host := None; arg_port := Some "8080";
                           arg_reload := false |})
                     sample_world)).1) ≤ 1)%nat
  ∧ ∀ app ns,
      (app, ns) ∈ server_starts
                    (run main (with_command_line (os_environ sample_world)
                                 (parser_parse_args sample_int (os_environ sample_world)
                                    {| arg_host := None; arg_port := Some "8080";
                                       arg_reload := false |})
                                 sample_world)).1 →
      app = "bot_runner:app" ∧ reload ns = true.
Proof.
  apply (reload_always_on sample_int
           {| arg_host := None; arg_port := Some "8080"; arg_reload := false |}).
  reflexivity.
Defined.



(** X15. Where the start-up check has passed, the helper that [lifespan]
    stores under [rest] carries the DAILY_API_KEY of the environment, not the
    empty default, and the session it carries is the one opened before and
    closed after serving; entries of [daily_helpers] under other names are
    kept. *)
Theorem lifespan_helper_after_check
    (w : World) (session : nat) (daily_helpers : gmap string DailyRESTHelper) :
  run (check_env_vars REQUIRED_ENV_VARS) w = ([], Return tt) →
  ∃ key,
    os_environ w !! "DAILY_API_KEY" = Some key
    ∧ (lifespan session (os_environ w) daily_helpers).2 !! "rest"
        = Some {| daily_api_key := key;
                  daily_api_url :=
                    getenv (os_environ w) "DAILY_API_URL" "https://api.daily.co/v1";
                  aiohttp_session := session |}
    ∧ (lifespan session (os_environ w) daily_helpers).1
        = [ClientSessionOpen session; Serving; ClientSessionClose session]
    ∧ ∀ name, name ≠ "rest" →
        (lifespan session (os_environ w) daily_helpers).2 !! name = daily_helpers !! name.
Proof.
  intros Hpassed.
  pose proof (check_env_vars_passed _ _ Hpassed) as Hcheck.
  destruct (Hcheck "DAILY_API_KEY") as [key Hkey].
  { apply elem_of_cons. right. by left. }
  exists key. split; [done|]. unfold lifespan, getenv. cbn [fst snd].
  rewrite lookup_insert_eq, Hkey. repeat split.
  intros name Hname. by rewrite lookup_insert_ne.
Qed.

Lemma lifespan_helper_after_check_witness :
  ∃ key,
    os_environ sample_world !! "DAILY_API_KEY" = Some key
    ∧ (lifespan 1 (os_environ sample_world) ∅).2 !! "rest"
        = Some {| daily_api_key := key;
                  daily_api_url :=
                    getenv (os_environ sample_world) "DAILY_API_URL" "https://api.daily.co/v1";
                  aiohttp_session := 1 |}
    ∧ (lifespan 1 (os_environ sample_world) ∅).1
        = [ClientSessionOpen 1; Serving; ClientSessionClose 1]
    ∧ ∀ name, name ≠ "rest" →
        (lifespan 1 (os_environ sample_world) ∅).2 !! name
          = (∅ : gmap string DailyRESTHelper) !! name.
Proof.
  apply (lifespan_helper_after_check sample_world 1 ∅). vm_compute. reflexivity.
Defined.
